(** * Person cards: a model of [src/index.ts]

    The script holds a literal array of person records ([complexArray]),
    looks up the element with id [people-list] and, when it exists, appends
    one [div.person-card] per record, whose [innerHTML] is a template filled
    with the record's fields.

    The development follows the script top to bottom: JavaScript values and
    the two operators the template relies on ([??] and string conversion),
    the [Date] built-ins used for the birthdate, the record type and the
    literal data, a small DOM, and finally the script itself as a
    state-passing program whose outcome is a completion (normal or thrown). *)

From Stdlib Require Import ZArith Ascii String List.
From stdpp Require Import base option list strings gmap fin_maps pretty.

Open Scope Z_scope.

(** ** Strings *)

(** Template literals and [Array.prototype.join] concatenate strings. *)
Definition nl : string := String (ascii_of_nat 10) EmptyString.
Definition dq : string := String (ascii_of_nat 34) EmptyString.

(** [parts.join('')]: concatenation with the empty separator. *)
Fixpoint join_empty (parts : list string) : string :=
  match parts with
  | [] => EmptyString
  | s :: rest => s +:+ join_empty rest
  end.

(** [s] occurs in [t] as a contiguous piece of text. *)
Definition occurs_in (s t : string) : Prop :=
  exists before after, t = before +:+ s +:+ after.

(** ** JavaScript values

    The fields interpolated in the template are strings, numbers, [null] and
    [undefined].  Numbers are integer valued in the program ([id], [age],
    [zipCode], [score]); they are modelled by [Z], whose decimal rendering is
    the one of [Number::toString] on integers of magnitude below 10^21. *)
Inductive Value : Type :=
  | VUndefined
  | VNull
  | VString (s : string)
  | VNumber (n : Z).

(** [ToString] on the values above, as applied by [${...}]. *)
Definition ToString (v : Value) : string :=
  match v with
  | VUndefined => "undefined"
  | VNull => "null"
  | VString s => s
  | VNumber n => pretty n
  end.

(** [lhs ?? rhs]: [rhs] only when [lhs] is [null] or [undefined]
    (compiled in [index.js] to [lhs !== null && lhs !== void 0 ? lhs : rhs]). *)
Definition nullish_coalesce (lhs rhs : Value) : Value :=
  match lhs with
  | VUndefined | VNull => rhs
  | _ => lhs
  end.

Infix "??" := nullish_coalesce (at level 45, left associativity).

(** ** Dates

    A [Date] holds a time value: milliseconds since 1970-01-01T00:00Z, or NaN
    ([None]) for an invalid date. *)
Record Date : Type := mkDate { DateValue : option Z }.

Definition msPerDay : Z := 86400000.

(** [Day(t)] of ECMA-262: the day number of a time value. *)
Definition Day (t : Z) : Z := t / msPerDay.

(** [DayFromYear(y)] of ECMA-262: day number of 1 January of year [y]. *)
Definition DayFromYear (y : Z) : Z :=
  365 * (y - 1970) + (y - 1969) / 4 - (y - 1901) / 100 + (y - 1601) / 400.

Definition isLeapYear (y : Z) : bool :=
  (y mod 4 =? 0) && (negb (y mod 100 =? 0) || (y mod 400 =? 0)).

Definition DaysInMonth (y m : Z) : Z :=
  if m =? 2 then (if isLeapYear y then 29 else 28)
  else if (m =? 4) || (m =? 6) || (m =? 9) || (m =? 11) then 30
  else 31.

(** Day number of the civil date [y]-[m]-[d] in the proleptic Gregorian
    calendar ([m] from 1, [d] from 1); years are counted from March so that
    the leap day comes last. *)
Definition days_from_civil (y m d : Z) : Z :=
  let y' := if m <=? 2 then y - 1 else y in
  let era := y' / 400 in
  let yoe := y' - era * 400 in
  let mp := if m <=? 2 then m + 9 else m - 3 in
  let doy := (153 * mp + 2) / 5 + d - 1 in
  let doe := yoe * 365 + yoe / 4 - yoe / 100 + doy in
  era * 146097 + doe - 719468.

(** The civil date of a day number: (year, month from 1, day of month). *)
Definition civil_from_days (z : Z) : Z * Z * Z :=
  let z' := z + 719468 in
  let era := z' / 146097 in
  let doe := z' - era * 146097 in
  let yoe := (doe - doe / 1460 + doe / 36524 - doe / 146096) / 365 in
  let doy := doe - (365 * yoe + yoe / 4 - yoe / 100) in
  let mp := (5 * doy + 2) / 153 in
  let d := doy - (153 * mp + 2) / 5 + 1 in
  let m := if mp <? 10 then mp + 3 else mp - 9 in
  let y := yoe + era * 400 in
  (if m <=? 2 then y + 1 else y, m, d).

Definition YearFromTime (t : Z) : Z := fst (fst (civil_from_days (Day t))).
(** [MonthFromTime] counts from 0 (January). *)
Definition MonthFromTime (t : Z) : Z := snd (fst (civil_from_days (Day t))) - 1.
Definition DateFromTime (t : Z) : Z := snd (civil_from_days (Day t)).

(** *** [new Date("YYYY-MM-DD")]

    The program builds its dates from date-only ISO strings, which
    [Date.parse] reads as UTC midnight of that day.  Only this form of the
    date-time grammar is covered; a string of this shape with a month or day
    out of range gives an invalid date. *)
Definition digit_of (c : ascii) : option Z :=
  let n := Z.of_nat (nat_of_ascii c) in
  if (48 <=? n) && (n <=? 57) then Some (n - 48) else None.

Fixpoint number_of (cs : list ascii) (acc : Z) : option Z :=
  match cs with
  | [] => Some acc
  | c :: rest =>
      match digit_of c with
      | Some k => number_of rest (10 * acc + k)
      | None => None
      end
  end.

Definition hyphen : ascii := ascii_of_nat 45.

Definition parse_date_only (s : string) : option Z :=
  match list_ascii_of_string s with
  | [y1; y2; y3; y4; h1; m1; m2; h2; d1; d2] =>
      if Ascii.eqb h1 hyphen && Ascii.eqb h2 hyphen then
        match number_of [y1; y2; y3; y4] 0, number_of [m1; m2] 0,
              number_of [d1; d2] 0 with
        | Some y, Some m, Some d =>
            if (1 <=? m) && (m <=? 12) && (1 <=? d) && (d <=? DaysInMonth y m)
            then Some (days_from_civil y m d * msPerDay)
            else None
        | _, _, _ => None
        end
      else None
  | _ => None
  end.

Definition new_Date (s : string) : Date := mkDate (parse_date_only s).

(** *** [toLocaleDateString("en-GB", {day: "numeric", month: "long", year: "numeric"})]

    No [timeZone] option is passed, so the date is formatted in the local
    time zone of the host: [LocalTime(t) = t + LocalTZA(t)], where the host
    gives the offset [LocalTZA] (in milliseconds, positive east of
    Greenwich) in force at each instant. *)
Definition monthLong (m : Z) : string :=
  match m with
  | 0 => "January" | 1 => "February" | 2 => "March" | 3 => "April"
  | 4 => "May" | 5 => "June" | 6 => "July" | 7 => "August"
  | 8 => "September" | 9 => "October" | 10 => "November"
  | _ => "December"
  end.

(** The pattern of the locale is [d MMMM y], where [y] is the year of the
    era: year 0 and before are counted backwards from 1. *)
Definition yearOfEra (y : Z) : Z := if y <=? 0 then 1 - y else y.

Definition LocalTime (LocalTZA : Z -> Z) (t : Z) : Z := t + LocalTZA t.

Definition toLocaleDateString (LocalTZA : Z -> Z) (d : Date) : string :=
  match DateValue d with
  | None => "Invalid Date"
  | Some tv =>
      let t := LocalTime LocalTZA tv in
      pretty (DateFromTime t) +:+ " " +:+ monthLong (MonthFromTime t)
        +:+ " " +:+ pretty (yearOfEra (YearFromTime t))
  end.

(** ** Records *)

Record AddressDetails : Type := mkAddressDetails {
  address : string;
  city : string;
  zipCode : Z;
}.

(** [status: string | null | undefined]. *)
Inductive Status : Type :=
  | status_undefined
  | status_null
  | status_string (s : string).

(** The data properties of a person.  [score: number | null] is an option,
    [None] being [null]. *)
Record PersonFields : Type := mkPersonFields {
  id : Z;
  name : string;
  isActive : bool;
  age : Z;
  skills : list string;
  details : AddressDetails;
  score : option Z;
  status : Status;
  birthdate : Date;
}.

(** A person: its data properties and its [greet] method, a function of the
    receiver [this]. *)
Record Person : Type := mkPerson {
  fields :> PersonFields;
  greet : PersonFields -> string;
}.

(** [person.greet()]: the method is called with the person as [this]. *)
Definition call_greet (person : Person) : string := greet person (fields person).

Definition status_value (s : Status) : Value :=
  match s with
  | status_undefined => VUndefined
  | status_null => VNull
  | status_string s => VString s
  end.

Definition score_value (s : option Z) : Value :=
  match s with
  | None => VNull
  | Some n => VNumber n
  end.

(** The function literal written for every record of the program:
    [function () { return `Hello, I'm ${this.name}`; }]. *)
Definition greet_function (this : PersonFields) : string :=
  "Hello, I'm " +:+ ToString (VString (name this)).

Definition Alice : Person :=
  {| fields :=
       {| id := 1; name := "Alice"; isActive := true; age := 25;
          skills := ["JavaScript"; "TypeScript"; "React"];
          details := {| address := "123 Main St"; city := "Wonderland";
                        zipCode := 12345 |};
          score := None; status := status_undefined;
          birthdate := new_Date "1998-05-15" |};
     greet := greet_function |}.

Definition Bob : Person :=
  {| fields :=
       {| id := 2; name := "Bob"; isActive := false; age := 30;
          skills := ["Python"; "Django"; "Machine Learning"];
          details := {| address := "456 Side St"; city := "Shire";
                        zipCode := 54321 |};
          score := Some 100; status := status_null;
          birthdate := new_Date "1993-08-20" |};
     greet := greet_function |}.

Definition Charlie : Person :=
  {| fields :=
       {| id := 3; name := "Charlie"; isActive := true; age := 28;
          skills := ["Java"; "Spring Boot"; "Kotlin"];
          details := {| address := "789 Circle Dr"; city := "Gotham";
                        zipCode := 67890 |};
          score := Some 85; status := status_undefined;
          birthdate := new_Date "1995-02-10" |};
     greet := greet_function |}.

Definition complexArray : list Person := [Alice; Bob; Charlie].

(** ** The DOM

    An element has a local name, a class list, the markup last assigned to
    [innerHTML] and the child elements appended to it.  The markup is kept as
    the text the script assigns; it is not parsed. *)
#[warnings="-register-all"]
Inductive Element : Type := mkElement {
  localName : string;
  classList : list string;
  innerHTML : string;
  children : list Element;
}.

(** [document.createElement(tag)]. *)
Definition createElement (tag : string) : Element :=
  {| localName := tag; classList := []; innerHTML := EmptyString;
     children := [] |}.

(** [el.classList.add(token)]: the token is added unless already there. *)
Definition classList_add (token : string) (el : Element) : Element :=
  {| localName := localName el;
     classList := if bool_decide (token ∈ classList el) then classList el
                  else classList el ++ [token];
     innerHTML := innerHTML el;
     children := children el |}.

(** [el.innerHTML = markup]: the former content of the element is replaced. *)
Definition set_innerHTML (markup : string) (el : Element) : Element :=
  {| localName := localName el; classList := classList el;
     innerHTML := markup; children := [] |}.

(** The effect of [parent.appendChild(child)] on [parent], for a [child]
    that is not yet in the tree: it becomes the last child. *)
Definition append_child (child parent : Element) : Element :=
  {| localName := localName parent; classList := classList parent;
     innerHTML := innerHTML parent;
     children := children parent ++ [child] |}.

(** ** The state of the page

    The array object behind [complexArray] and the elements of the document
    that carry an id.  An element reference is the id it was found under;
    the script removes no element, so a reference stays valid. *)
Abbreviation Ref := string (only parsing).

Record World : Type := mkWorld {
  array : list Person;
  document : gmap string Element;
}.

(** A statement either completes normally or throws. *)
Inductive Completion (A : Type) : Type :=
  | Normal (a : A)
  | Throw (error : string).
Arguments Normal {A} a.
Arguments Throw {A} error.

(** [document.getElementById(i)]: a reference, or [null] ([None]). *)
Definition getElementById (i : string) (w : World) : option Ref :=
  match document w !! i with
  | Some _ => Some i
  | None => None
  end.

(** [target.appendChild(child)]: a member call on [null] throws a
    [TypeError]. *)
Definition appendChild (target : option Ref) (child : Element) (w : World)
  : Completion World :=
  match target with
  | None => Throw "TypeError"
  | Some r =>
      Normal {| array := array w;
                document := alter (append_child child) r (document w) |}
  end.

(** ** The script *)

(** [person.skills.map(skill => `<li>${skill}</li>`)]. *)
Definition skill_item (skill : string) : string :=
  "<li>" +:+ ToString (VString skill) +:+ "</li>".

Definition skill_items (person : Person) : list string :=
  map skill_item (skills person).

(** The two defaulted interpolations of the template. *)
Definition status_text (person : Person) : string :=
  ToString (status_value (status person) ?? VString "N/A").

Definition score_text (person : Person) : string :=
  ToString (score_value (score person) ?? VString "N/A").

Section Host.

(** The offset of the host's local time zone, see [LocalTime]. *)
Variable LocalTZA : Z -> Z.

(** [formattedBirthdate] of the callback. *)
Definition formattedBirthdate (person : Person) : string :=
  toLocaleDateString LocalTZA (birthdate person).

(** The template literal assigned to [personCard.innerHTML]. *)
Definition card_markup (person : Person) : string :=
  nl +:+ "      <h3>" +:+ ToString (VString (name person)) +:+ "</h3>" +:+ nl
  +:+ "      <p><strong>Age:</strong> " +:+ ToString (VNumber (age person))
  +:+ "</p>" +:+ nl
  +:+ "      <p><strong>Address:</strong> "
  +:+ ToString (VString (address (details person))) +:+ ", "
  +:+ ToString (VString (city (details person))) +:+ " "
  +:+ ToString (VNumber (zipCode (details person))) +:+ "</p>" +:+ nl
  +:+ "      <p><strong>Status:</strong> " +:+ status_text person
  +:+ "</p>" +:+ nl
  +:+ "      <p><strong>Score:</strong> " +:+ score_text person
  +:+ "</p>" +:+ nl
  +:+ "      <p><strong>Birthdate:</strong> " +:+ formattedBirthdate person
  +:+ "</p>" +:+ nl
  +:+ "      <p><strong>Skills:</strong></p>" +:+ nl
  +:+ "      <ul class=" +:+ dq +:+ "skills" +:+ dq +:+ ">" +:+ nl
  +:+ "        " +:+ join_empty (skill_items person) +:+ nl
  +:+ "      </ul>" +:+ nl
  +:+ "      <p class=" +:+ dq +:+ "greet" +:+ dq
  +:+ "><strong>Greet:</strong> " +:+ call_greet person +:+ "</p>" +:+ nl
  +:+ "    ".

(** The element built by one run of the callback, before it is appended. *)
Definition personCard (person : Person) : Element :=
  let personCard := createElement "div" in
  let personCard := classList_add "person-card" personCard in
  set_innerHTML (card_markup person) personCard.

(** The arrow function passed to [forEach]; [peopleListElement] is the
    constant it closes over. *)
Definition callback (peopleListElement : option Ref) (person : Person)
  (w : World) : Completion World :=
  appendChild peopleListElement (personCard person) w.

(** [complexArray.forEach(callbackfn)]: the length is read once, then every
    index below it is read from the array as it is at that moment and the
    callback is called on the element found; a throw ends the loop.  [k] is
    the next index and [todo] the number of indices left. *)
Fixpoint forEach_from (callbackfn : Person -> World -> Completion World)
  (k todo : nat) (w : World) : Completion World :=
  match todo with
  | O => Normal w
  | S todo' =>
      match array w !! k with
      | Some kValue =>
          match callbackfn kValue w with
          | Normal w' => forEach_from callbackfn (S k) todo' w'
          | Throw e => Throw e
          end
      | None => forEach_from callbackfn (S k) todo' w
      end
  end.

Definition forEach (callbackfn : Person -> World -> Completion World)
  (w : World) : Completion World :=
  forEach_from callbackfn 0 (length (array w)) w.

(** The whole script, run on a page. *)
Definition main (w : World) : Completion World :=
  let peopleListElement := getElementById "people-list" w in
  match peopleListElement with
  | Some _ => forEach (callback peopleListElement) w
  | None => Normal w
  end.

End Host.

(** The page as the script finds it: the literal array and some document. *)
Definition page (doc : gmap string Element) : World :=
  {| array := complexArray; document := doc |}.

(** A page to run the script on: a container that already holds a heading,
    next to an unrelated element. *)
Definition sample_container : Element :=
  {| localName := "section"; classList := ["list"]; innerHTML := EmptyString;
     children := [createElement "h2"] |}.

Definition sample_document : gmap string Element :=
  {[ "people-list" := sample_container; "footer" := createElement "footer" ]}.

(** The host clock of Greenwich, and of a zone five hours behind it. *)
Definition utc : Z -> Z := fun _ => 0.
Definition five_hours_behind : Z -> Z := fun _ => -18000000.

(** The container after [new] elements were appended to it, in order. *)
Definition append_children (new : list Element) (parent : Element) : Element :=
  {| localName := localName parent; classList := classList parent;
     innerHTML := innerHTML parent;
     children := children parent ++ new |}.

(** The record [person] with another value in its [status] property. *)
Definition set_status (s : Status) (person : Person) : Person :=
  {| fields :=
       {| id := id person; name := name person; isActive := isActive person;
          age := age person; skills := skills person;
          details := details person; score := score person; status := s;
          birthdate := birthdate person |};
     greet := greet person |}.

(** The record [person] with another list in its [skills] property. *)
Definition set_skills (l : list string) (person : Person) : Person :=
  {| fields :=
       {| id := id person; name := name person; isActive := isActive person;
          age := age person; skills := l;
          details := details person; score := score person;
          status := status person; birthdate := birthdate person |};
     greet := greet person |}.

(** The text the specification asks for inside the skills list, written
    from its words and not from the script: one entry per skill string, in
    the order of the skills, nothing before, between or after the entries. *)
Fixpoint entries_in_order (skills : list string) : string :=
  match skills with
  | [] => EmptyString
  | skill :: rest => "<li>" +:+ skill +:+ "</li>" +:+ entries_in_order rest
  end.

(** *** Checks on the calendar

    The Gregorian calendar repeats every 400 years, that is every 146097
    days, so a fact about civil dates can be checked on one cycle. *)

(** The condition under which [parse_date_only] accepts month and day. *)
Definition valid_civil (y m d : Z) : bool :=
  (1 <=? m) && (m <=? 12) && (1 <=? d) && (d <=? DaysInMonth y m).

Definition civil_eqb (a b : Z * Z * Z) : bool :=
  (fst (fst a) =? fst (fst b)) && (snd (fst a) =? snd (fst b))
  && (snd a =? snd b).

Definition roundtrip_ok (y m d : Z) : bool :=
  implb (valid_civil y m d)
        (civil_eqb (civil_from_days (days_from_civil y m d)) (y, m, d)).

Definition roundtrip_month (y m : Z) : bool :=
  forallb (roundtrip_ok y m) (seqZ 1 31).

Definition roundtrip_year (y : Z) : bool :=
  forallb (roundtrip_month y) (seqZ 1 12).

(** The year, month and day digits of a string of the shape [YYYY-MM-DD]. *)
Definition date_only_fields (s : string) : option (Z * Z * Z) :=
  match list_ascii_of_string s with
  | [y1; y2; y3; y4; h1; m1; m2; h2; d1; d2] =>
      if Ascii.eqb h1 hyphen && Ascii.eqb h2 hyphen then
        match number_of [y1; y2; y3; y4] 0, number_of [m1; m2] 0,
              number_of [d1; d2] 0 with
        | Some y, Some m, Some d => Some (y, m, d)
        | _, _, _ => None
        end
      else None
  | _ => None
  end.

(** * Properties *)

(** ** Text *)

Lemma append_assoc (a b c : string) : (a +:+ b) +:+ c = a +:+ b +:+ c.
Proof.
  induction a as [|ch a IH]; [reflexivity|].
  change (String ch ((a +:+ b) +:+ c) = String ch (a +:+ b +:+ c)).
  by f_equal.
Qed.

Lemma occurs_in_here (s after : string) : occurs_in s (s +:+ after).
Proof. exists EmptyString, after. reflexivity. Qed.

Lemma occurs_in_later (s a t : string) : occurs_in s t -> occurs_in s (a +:+ t).
Proof.
  intros (before & after & ->). exists (a +:+ before), after.
  by rewrite append_assoc.
Qed.

Lemma occurs_in_prefix (s a b after : string) :
  occurs_in s (a +:+ b) -> occurs_in s (a +:+ b +:+ after).
Proof.
  intros (before & after' & E). exists before, (after' +:+ after).
  by rewrite <- (append_assoc a b), E, !append_assoc.
Qed.

(** Finds a piece of text in a concatenation: [pre] is what precedes it
    inside the literal it starts in. *)
Ltac find_text pre :=
  first [ solve [ eexists pre, _; rewrite ?append_assoc; reflexivity ]
        | apply occurs_in_later; find_text pre ].

(** ** The container *)

Lemma append_children_nil (parent : Element) : append_children [] parent = parent.
Proof. destruct parent. unfold append_children. simpl. by rewrite app_nil_r. Qed.

Lemma append_children_cons (c : Element) (new : list Element) (parent : Element) :
  append_children new (append_child c parent) = append_children (c :: new) parent.
Proof. unfold append_children, append_child. simpl. by rewrite <- app_assoc. Qed.

Section Loop.

Variable LocalTZA : Z -> Z.
Variable r : string.

(** The loop from index [k] on appends the cards of the records it visits
    and leaves the array alone. *)
Lemma forEach_from_appends (todo k : nat) (w : World) :
  forEach_from (callback LocalTZA (Some r)) k todo w =
  Normal {| array := array w;
            document :=
              alter (append_children
                       (map (personCard LocalTZA) (take todo (drop k (array w)))))
                    r (document w) |}.
Proof.
  revert k w. induction todo as [|todo IH]; intros k w; simpl.
  - rewrite alter_id; [by destruct w|]. intros; apply append_children_nil.
  - destruct (array w !! k) as [p|] eqn:Hk.
    + unfold callback at 1. simpl. rewrite IH. simpl.
      rewrite (drop_S _ _ _ Hk). simpl. rewrite alter_alter_eq.
      do 2 f_equal. apply alter_ext. intros el _. simpl.
      apply append_children_cons.
    + rewrite IH. apply lookup_ge_None in Hk.
      rewrite !drop_ge by lia. by rewrite !take_nil.
Qed.

Lemma forEach_appends (w : World) :
  forEach (callback LocalTZA (Some r)) w =
  Normal {| array := array w;
            document :=
              alter (append_children (map (personCard LocalTZA) (array w)))
                    r (document w) |}.
Proof.
  unfold forEach. rewrite forEach_from_appends, drop_0, firstn_all.
  reflexivity.
Qed.

End Loop.

(** What the script does to a page: nothing without the container, and
    otherwise one card per record at the end of the container. *)
Lemma main_absent (LocalTZA : Z -> Z) (w : World) :
  document w !! "people-list" = None -> main LocalTZA w = Normal w.
Proof. intros H. unfold main, getElementById. by rewrite H. Qed.

Lemma main_present (LocalTZA : Z -> Z) (w : World) (el : Element) :
  document w !! "people-list" = Some el ->
  main LocalTZA w =
  Normal {| array := array w;
            document :=
              <["people-list" :=
                  append_children (map (personCard LocalTZA) (array w)) el]>
                (document w) |}.
Proof.
  intros H. unfold main, getElementById. rewrite H, forEach_appends.
  do 2 f_equal. apply map_eq. intros j.
  destruct (decide (j = "people-list")) as [->|Hj].
  - by rewrite lookup_alter_eq, lookup_insert_eq, H.
  - by rewrite lookup_alter_ne, lookup_insert_ne.
Qed.

(** Without its guard the callback would throw on a missing container. *)
Lemma callback_null_throws (LocalTZA : Z -> Z) (person : Person) (w : World) :
  callback LocalTZA None person w = Throw "TypeError".
Proof. reflexivity. Qed.

(** ** The loop over the records *)

(** C1: when the container is present, the script completes and the
    elements it appended to the container are as many as the records, the
    i-th of them being the card built from the i-th record. *)
Theorem render_one_card_per_record (LocalTZA : Z -> Z) (w : World)
  (container : Element) :
  document w !! "people-list" = Some container ->
  exists (w' : World) (container' : Element) (appended : list Element),
    main LocalTZA w = Normal w' /\
    document w' !! "people-list" = Some container' /\
    children container' = children container ++ appended /\
    length appended = length (array w) /\
    forall (i : nat) (person : Person),
      array w !! i = Some person ->
      appended !! i = Some (personCard LocalTZA person).
Proof.
  intros H. eexists _, _, (map (personCard LocalTZA) (array w)).
  split; [exact (main_present LocalTZA w container H)|].
  simpl. split; [apply lookup_insert_eq|]. split; [reflexivity|].
  split; [apply length_map|].
  intros i person Hi. change map with (@fmap list _) at 1.
  by rewrite list_lookup_fmap, Hi.
Qed.

Lemma render_one_card_per_record_witness :
  document (page sample_document) !! "people-list" = Some sample_container /\
  exists (w' : World) (container' : Element) (appended : list Element),
    main utc (page sample_document) = Normal w' /\
    document w' !! "people-list" = Some container' /\
    children container' = children sample_container ++ appended /\
    length appended = length (array (page sample_document)) /\
    forall (i : nat) (person : Person),
      array (page sample_document) !! i = Some person ->
      appended !! i = Some (personCard utc person).
Proof.
  split; [reflexivity|].
  apply (render_one_card_per_record utc (page sample_document) sample_container).
  reflexivity.
Defined.

(** C2: when the lookup of the container finds nothing, the script completes
    normally and leaves the page, array and document, as it found it. *)
Theorem render_without_container (LocalTZA : Z -> Z) (w : World) :
  getElementById "people-list" w = None ->
  main LocalTZA w = Normal w.
Proof.
  intros H. apply main_absent. unfold getElementById in H.
  by destruct (document w !! "people-list").
Qed.

Lemma render_without_container_witness :
  getElementById "people-list" (page ∅) = None /\
  main utc (page ∅) = Normal (page ∅).
Proof.
  split; [reflexivity|].
  apply (render_without_container utc (page ∅)). reflexivity.
Defined.

(** C8: the script always completes, and the array it leaves holds the
    records it found, each with all its fields as they were. *)
Theorem render_keeps_records (LocalTZA : Z -> Z) (w : World) :
  exists w' : World,
    main LocalTZA w = Normal w' /\
    array w' = array w /\
    forall (i : nat) (person : Person),
      array w !! i = Some person -> array w' !! i = Some person.
Proof.
  destruct (document w !! "people-list") as [container|] eqn:H.
  - eexists. split; [exact (main_present LocalTZA w container H)|]. auto.
  - exists w. split; [exact (main_absent LocalTZA w H)|]. auto.
Qed.

(** C9: the script only appends to the container: the children it held keep
    their places, the new cards follow them, the container is otherwise the
    same and so is every other element of the document. *)
Theorem render_only_appends (LocalTZA : Z -> Z) (w : World)
  (container : Element) :
  document w !! "people-list" = Some container ->
  exists (w' : World) (container' : Element),
    main LocalTZA w = Normal w' /\
    document w' !! "people-list" = Some container' /\
    children container' =
      children container ++ map (personCard LocalTZA) (array w) /\
    (forall (i : nat) (child : Element),
        children container !! i = Some child ->
        children container' !! i = Some child) /\
    localName container' = localName container /\
    classList container' = classList container /\
    innerHTML container' = innerHTML container /\
    forall j : string,
      j <> "people-list" -> document w' !! j = document w !! j.
Proof.
  intros H. eexists _, _.
  split; [exact (main_present LocalTZA w container H)|].
  simpl. split; [apply lookup_insert_eq|]. simpl.
  split; [reflexivity|]. split.
  { intros i child Hi. by apply lookup_app_l_Some. }
  repeat split. intros j Hj. by apply lookup_insert_ne.
Qed.

Lemma render_only_appends_witness :
  document (page sample_document) !! "people-list" = Some sample_container /\
  exists (w' : World) (container' : Element),
    main utc (page sample_document) = Normal w' /\
    document w' !! "people-list" = Some container' /\
    children container' =
      children sample_container ++ map (personCard utc) (array (page sample_document)) /\
    (forall (i : nat) (child : Element),
        children sample_container !! i = Some child ->
        children container' !! i = Some child) /\
    localName container' = localName sample_container /\
    classList container' = classList sample_container /\
    innerHTML container' = innerHTML sample_container /\
    forall j : string,
      j <> "people-list" ->
      document w' !! j = document (page sample_document) !! j.
Proof.
  split; [reflexivity|].
  apply (render_only_appends utc (page sample_document) sample_container).
  reflexivity.
Defined.

(** ** The card of a record *)

(** What the script computes for the skills, [map] then [join], is the text
    of the specification. *)
Lemma join_skill_items (person : Person) :
  join_empty (skill_items person) = entries_in_order (skills person).
Proof.
  unfold skill_items. induction (skills person) as [|skill rest IH].
  - reflexivity.
  - change (skill_item skill +:+ join_empty (map skill_item rest) =
            "<li>" +:+ skill +:+ "</li>" +:+ entries_in_order rest).
    rewrite IH. unfold skill_item. simpl ToString.
    by rewrite !append_assoc.
Qed.

Lemma entries_in_order_app (l1 l2 : list string) :
  entries_in_order (l1 ++ l2) = entries_in_order l1 +:+ entries_in_order l2.
Proof.
  induction l1 as [|skill l1 IH]; [reflexivity|].
  change (entries_in_order ((skill :: l1) ++ l2))
    with ("<li>" +:+ skill +:+ "</li>" +:+ entries_in_order (l1 ++ l2)).
  change (entries_in_order (skill :: l1))
    with ("<li>" +:+ skill +:+ "</li>" +:+ entries_in_order l1).
  by rewrite IH, !append_assoc.
Qed.

(** C3: the status and the score shown in a card are the value of the field
    turned into a string when it holds one, and ["N/A"] when it holds
    [null] or [undefined]; so a record with [score = null] and
    [status = undefined] shows ["N/A"] twice and one with [score = 100]
    shows ["100"]. *)
Theorem status_and_score_display (LocalTZA : Z -> Z) (person : Person) :
  status_text person =
    match status person with
    | status_string s => ToString (VString s)
    | status_null | status_undefined => "N/A"
    end /\
  score_text person =
    match score person with
    | Some n => ToString (VNumber n)
    | None => "N/A"
    end /\
  occurs_in ("<p><strong>Status:</strong> " +:+ status_text person +:+ "</p>")
            (card_markup LocalTZA person) /\
  occurs_in ("<p><strong>Score:</strong> " +:+ score_text person +:+ "</p>")
            (card_markup LocalTZA person) /\
  (score person = None -> status person = status_undefined ->
   status_text person = "N/A" /\ score_text person = "N/A") /\
  (score person = Some 100 -> score_text person = "100").
Proof.
  unfold status_text, score_text.
  split; [by destruct (status person)|].
  split; [by destruct (score person)|].
  split; [unfold card_markup, status_text; find_text "      "|].
  split; [unfold card_markup, score_text; find_text "      "|].
  split; [by intros -> ->|by intros ->].
Qed.

Lemma status_and_score_display_witness :
  (score Alice = None /\ status Alice = status_undefined /\
   status_text Alice = "N/A" /\ score_text Alice = "N/A") /\
  (score Bob = Some 100 /\ score_text Bob = "100").
Proof.
  destruct (status_and_score_display utc Alice) as (_ & _ & _ & _ & Hna & _).
  destruct (status_and_score_display utc Bob) as (_ & _ & _ & _ & _ & H100).
  split.
  - split; [reflexivity|]. split; [reflexivity|]. apply Hna; reflexivity.
  - split; [reflexivity|]. apply H100. reflexivity.
Defined.

(** C5: the skills list of a card holds, between its opening and closing
    tags, exactly one [<li>] entry per skill string of the record, in the
    order of the skills, with nothing added or dropped: the text between the
    tags is the one the specification asks for, the i-th entry is the i-th
    skill's and stands after the entries of the skills before it and before
    those of the skills after it, and a record without skills has an empty
    list. *)
Theorem skills_list_entries (LocalTZA : Z -> Z) (person : Person) :
  occurs_in ("<ul class=" +:+ dq +:+ "skills" +:+ dq +:+ ">" +:+ nl
             +:+ "        " +:+ entries_in_order (skills person) +:+ nl
             +:+ "      </ul>")
            (card_markup LocalTZA person) /\
  length (skill_items person) = length (skills person) /\
  (forall i : nat,
      skill_items person !! i =
      (fun skill => "<li>" +:+ skill +:+ "</li>") <$> skills person !! i) /\
  (forall (i : nat) (skill : string),
      skills person !! i = Some skill ->
      join_empty (skill_items person) =
        entries_in_order (take i (skills person))
        +:+ "<li>" +:+ skill +:+ "</li>"
        +:+ entries_in_order (drop (S i) (skills person))) /\
  (forall a b c : string,
      skills person = [a; b; c] ->
      join_empty (skill_items person) =
        "<li>" +:+ a +:+ "</li><li>" +:+ b +:+ "</li><li>" +:+ c +:+ "</li>") /\
  (skills person = [] ->
   occurs_in ("<ul class=" +:+ dq +:+ "skills" +:+ dq +:+ ">" +:+ nl
              +:+ "        " +:+ nl +:+ "      </ul>")
             (card_markup LocalTZA person)) /\
  occurs_in ("<ul class=" +:+ dq +:+ "skills" +:+ dq +:+ ">" +:+ nl
             +:+ "        <li>JavaScript</li><li>TypeScript</li><li>React</li>"
             +:+ nl +:+ "      </ul>")
            (card_markup LocalTZA Alice) /\
  join_empty (map skill_item []) = EmptyString.
Proof.
  assert (Hlist : forall p : Person,
    occurs_in ("<ul class=" +:+ dq +:+ "skills" +:+ dq +:+ ">" +:+ nl
               +:+ "        " +:+ entries_in_order (skills p) +:+ nl
               +:+ "      </ul>")
              (card_markup LocalTZA p)).
  { intros p. unfold card_markup. rewrite join_skill_items.
    find_text "      ". }
  split; [apply Hlist|].
  split; [apply length_map|].
  split.
  { intros i. unfold skill_items. change map with (@fmap list _).
    by rewrite list_lookup_fmap. }
  split.
  { intros i skill Hi. rewrite join_skill_items.
    rewrite <- (take_drop_middle _ _ _ Hi) at 1.
    rewrite entries_in_order_app.
    change (entries_in_order (skill :: drop (S i) (skills person)))
      with ("<li>" +:+ skill +:+ "</li>"
            +:+ entries_in_order (drop (S i) (skills person))).
    reflexivity. }
  split.
  { intros a b c H. rewrite join_skill_items, H.
    change (entries_in_order [a; b; c])
      with ("<li>" +:+ a +:+ "</li>" +:+ "<li>" +:+ b +:+ "</li>"
            +:+ "<li>" +:+ c +:+ "</li>" +:+ EmptyString).
    assert (Hnil : forall t : string, t +:+ EmptyString = t).
    { intros t. induction t as [|ch t IH]; [reflexivity|].
      change (String ch (t +:+ EmptyString) = String ch t). by f_equal. }
    rewrite Hnil.
    rewrite <- (append_assoc "</li>" "<li>" (b +:+ _)).
    rewrite <- (append_assoc "</li>" "<li>" (c +:+ _)).
    reflexivity. }
  split.
  { intros H. specialize (Hlist person). by rewrite H in Hlist. }
  split; [exact (Hlist Alice)|reflexivity].
Qed.

Lemma skills_list_entries_witness :
  (skills Alice !! 1%nat = Some "TypeScript" /\
   join_empty (skill_items Alice) =
     entries_in_order (take 1 (skills Alice))
     +:+ "<li>" +:+ "TypeScript" +:+ "</li>"
     +:+ entries_in_order (drop 2 (skills Alice))) /\
  (skills Alice = ["JavaScript"; "TypeScript"; "React"] /\
   join_empty (skill_items Alice) =
     "<li>" +:+ "JavaScript" +:+ "</li><li>" +:+ "TypeScript"
     +:+ "</li><li>" +:+ "React" +:+ "</li>") /\
  (skills (set_skills [] Alice) = [] /\
   occurs_in ("<ul class=" +:+ dq +:+ "skills" +:+ dq +:+ ">" +:+ nl
              +:+ "        " +:+ nl +:+ "      </ul>")
             (card_markup utc (set_skills [] Alice))).
Proof.
  destruct (skills_list_entries utc Alice) as (_ & _ & _ & Hpos & Hthree & _).
  destruct (skills_list_entries utc (set_skills [] Alice))
    as (_ & _ & _ & _ & _ & Hnone & _).
  split; [split; [reflexivity | apply Hpos; reflexivity]|].
  split; [split; [reflexivity | apply Hthree; reflexivity]|].
  split; [reflexivity | apply Hnone; reflexivity].
Defined.

(** C10: a status that is [null], as Bob's, is shown as ["N/A"], the text
    shown for a status that is [undefined]; Bob's card is the one he would
    have with an undefined status. *)
Theorem null_status_displays_default (LocalTZA : Z -> Z) (person : Person) :
  status person = status_null ->
  status_text person = "N/A" /\
  status_text person = status_text (set_status status_undefined person) /\
  occurs_in "<p><strong>Status:</strong> N/A</p>" (card_markup LocalTZA person) /\
  card_markup LocalTZA Bob =
    card_markup LocalTZA (set_status status_undefined Bob).
Proof.
  intros H.
  assert (Htext : status_text person = "N/A") by (unfold status_text; by rewrite H).
  split; [exact Htext|]. split; [by rewrite Htext|]. split; [|reflexivity].
  unfold card_markup. rewrite Htext. find_text "      ".
Qed.

Lemma null_status_displays_default_witness :
  name Bob = "Bob" /\ status Bob = status_null /\
  status_text Bob = "N/A" /\
  status_text Bob = status_text (set_status status_undefined Bob) /\
  occurs_in "<p><strong>Status:</strong> N/A</p>" (card_markup utc Bob) /\
  card_markup utc Bob = card_markup utc (set_status status_undefined Bob).
Proof.
  split; [reflexivity|]. split; [reflexivity|].
  apply (null_status_displays_default utc Bob). reflexivity.
Defined.

(** ** The records of the program *)

(** C6: no two positions of [complexArray] hold records with the same id. *)
Theorem ids_unique (i j : nat) (p q : Person) :
  i <> j ->
  complexArray !! i = Some p ->
  complexArray !! j = Some q ->
  id p <> id q.
Proof.
  intros Hij Hi Hj.
  destruct i as [|[|[|i]]], j as [|[|[|j]]]; simplify_eq/=; done.
Qed.

Lemma ids_unique_witness :
  0%nat <> 1%nat /\ complexArray !! 0%nat = Some Alice /\
  complexArray !! 1%nat = Some Bob /\ id Alice <> id Bob.
Proof.
  split; [lia|]. split; [reflexivity|]. split; [reflexivity|].
  apply (ids_unique 0 1 Alice Bob); [lia | reflexivity | reflexivity].
Defined.

(** C7: for every record of the program, [greet] returns ["Hello, I'm "]
    followed by the name of the record it is called on; its result is the
    same for any two receivers of the same name, whatever their other
    fields. *)
Theorem greet_depends_on_name (person : Person) :
  person ∈ complexArray ->
  call_greet person = "Hello, I'm " +:+ name person /\
  (forall this : PersonFields,
      greet person this = "Hello, I'm " +:+ name this) /\
  (forall this this' : PersonFields,
      name this = name this' -> greet person this = greet person this').
Proof.
  intros Hin.
  assert (Hg : greet person = greet_function).
  { unfold complexArray in Hin.
    repeat (apply elem_of_cons in Hin as [->|Hin]; [reflexivity|]).
    by apply elem_of_nil in Hin. }
  unfold call_greet. rewrite Hg. unfold greet_function. simpl.
  split; [reflexivity|]. split; [reflexivity|]. by intros this this' ->.
Qed.

Lemma greet_depends_on_name_witness :
  Alice ∈ complexArray /\
  call_greet Alice = "Hello, I'm Alice" /\
  (forall this : PersonFields,
      greet Alice this = "Hello, I'm " +:+ name this) /\
  (forall this this' : PersonFields,
      name this = name this' -> greet Alice this = greet Alice this').
Proof.
  split; [apply list_elem_of_here|].
  apply (greet_depends_on_name Alice). apply list_elem_of_here.
Defined.

(** ** The birthdate *)

(** A date at UTC midnight is shown as its own calendar day exactly by the
    hosts whose clock is at or ahead of Greenwich (by less than a day). *)
Lemma Day_local_midnight (LocalTZA : Z -> Z) (day : Z) :
  0 <= LocalTZA (day * msPerDay) < msPerDay ->
  Day (LocalTime LocalTZA (day * msPerDay)) = day.
Proof.
  intros H. unfold Day, LocalTime. symmetry.
  apply (Z.div_unique_pos _ _ day (LocalTZA (day * msPerDay))); [exact H|].
  unfold msPerDay in *. lia.
Qed.

Lemma birthdate_Alice_at_or_ahead_of_Greenwich (LocalTZA : Z -> Z) :
  0 <= LocalTZA 895190400000 < msPerDay ->
  formattedBirthdate LocalTZA Alice = "15 May 1998".
Proof.
  intros H. unfold formattedBirthdate, toLocaleDateString. cbn [birthdate fields Alice DateValue new_Date].
  change (parse_date_only "1998-05-15") with (Some (10361 * msPerDay)).
  cbv beta iota. unfold DateFromTime, MonthFromTime, YearFromTime.
  rewrite (Day_local_midnight LocalTZA 10361) by exact H.
  reflexivity.
Qed.

(** C4: on a host five hours behind Greenwich the card of Alice, born
    1998-05-15, shows the day before: the date is read as UTC midnight and
    shown in local time. *)
Theorem birthdate_Alice_behind_Greenwich :
  birthdate Alice = new_Date "1998-05-15" /\
  formattedBirthdate five_hours_behind Alice = "14 May 1998" /\
  occurs_in "<p><strong>Birthdate:</strong> 14 May 1998</p>"
            (card_markup five_hours_behind Alice) /\
  formattedBirthdate utc Alice = "15 May 1998".
Proof.
  split; [reflexivity|]. split; [reflexivity|]. split; [|reflexivity].
  exists (nl +:+ "      <h3>Alice</h3>" +:+ nl
          +:+ "      <p><strong>Age:</strong> 25</p>" +:+ nl
          +:+ "      <p><strong>Address:</strong> 123 Main St, Wonderland 12345</p>"
          +:+ nl +:+ "      <p><strong>Status:</strong> N/A</p>" +:+ nl
          +:+ "      <p><strong>Score:</strong> N/A</p>" +:+ nl +:+ "      ").
  eexists. vm_compute. reflexivity.
Qed.

(** * Further properties of the script *)

(** ** The cards and the page *)



(** X2: with no record in the array the script changes nothing, whether or
    not the container exists. *)
Theorem render_empty_array (LocalTZA : Z -> Z) (w : World) :
  array w = [] -> main LocalTZA w = Normal w.
Proof.
  intros Hnil.
  destruct (document w !! "people-list") as [container|] eqn:H.
  - rewrite (main_present LocalTZA w container H), Hnil. simpl.
    rewrite append_children_nil, (insert_id _ _ _ H), <- Hnil.
    by destruct w.
  - exact (main_absent LocalTZA w H).
Qed.

Lemma render_empty_array_witness :
  array {| array := []; document := sample_document |} = [] /\
  main utc {| array := []; document := sample_document |} =
    Normal {| array := []; document := sample_document |}.
Proof.
  split; [reflexivity|].
  apply (render_empty_array utc {| array := []; document := sample_document |}).
  reflexivity.
Defined.




(** ** Dates written as [YYYY-MM-DD] *)

Lemma days_from_civil_shift (y m d k : Z) :
  days_from_civil (y + 400 * k) m d = days_from_civil y m d + 146097 * k.
Proof.
  unfold days_from_civil. cbv zeta.
  set (y' := if m <=? 2 then y - 1 else y).
  replace (if m <=? 2 then y + 400 * k - 1 else y + 400 * k) with (y' + k * 400)
    by (unfold y'; destruct (m <=? 2); lia).
  rewrite Z.div_add by lia.
  replace (y' + k * 400 - (y' / 400 + k) * 400) with (y' - y' / 400 * 400) by lia.
  lia.
Qed.

Lemma civil_from_days_shift (z k : Z) :
  civil_from_days (z + 146097 * k) =
  let '(y, m, d) := civil_from_days z in (y + 400 * k, m, d).
Proof.
  unfold civil_from_days. cbv zeta.
  replace (z + 146097 * k + 719468) with (z + 719468 + k * 146097) by lia.
  rewrite Z.div_add by lia.
  replace (z + 719468 + k * 146097 - ((z + 719468) / 146097 + k) * 146097)
    with (z + 719468 - (z + 719468) / 146097 * 146097) by lia.
  destruct (_ <=? 2); f_equal; f_equal; lia.
Qed.

(** Every valid date of the years 0 to 399 is read back from its day
    number. *)
Lemma roundtrip_cycle_true : forallb roundtrip_year (seqZ 0 400) = true.
Proof. vm_compute. reflexivity. Qed.

Lemma forallb_seqZ (f : Z -> bool) (lo len x : Z) :
  forallb f (seqZ lo len) = true -> lo <= x < lo + len -> f x = true.
Proof.
  intros H Hx. rewrite forallb_forall in H. apply H.
  apply list_elem_of_In, elem_of_seqZ. lia.
Qed.

Lemma isLeapYear_shift (y k : Z) : isLeapYear (y + 400 * k) = isLeapYear y.
Proof.
  unfold isLeapYear.
  replace (y + 400 * k) with (y + (100 * k) * 4) at 1 by lia.
  replace (y + 400 * k) with (y + (4 * k) * 100) at 1 by lia.
  replace (y + 400 * k) with (y + k * 400) by lia.
  by rewrite !Z.mod_add by lia.
Qed.

Lemma DaysInMonth_bound (y m : Z) : 28 <= DaysInMonth y m <= 31.
Proof.
  unfold DaysInMonth.
  destruct (m =? 2); [destruct (isLeapYear y); lia|].
  destruct ((m =? 4) || (m =? 6) || (m =? 9) || (m =? 11)); lia.
Qed.

(** Reading a valid civil date back from its day number gives the date. *)
Lemma civil_roundtrip (y m d : Z) :
  valid_civil y m d = true ->
  civil_from_days (days_from_civil y m d) = (y, m, d).
Proof.
  intros Hv.
  assert (Hy : y = y mod 400 + 400 * (y / 400)) by (rewrite Z.mod_eq by lia; lia).
  set (r := y mod 400) in *. set (k := y / 400) in *.
  assert (Hr : 0 <= r < 400) by (apply Z.mod_pos_bound; lia).
  assert (Hv' : valid_civil r m d = true).
  { unfold valid_civil, DaysInMonth in *. by rewrite Hy, isLeapYear_shift in Hv. }
  pose proof (DaysInMonth_bound r m) as Hb.
  assert (Hmd : 1 <= m < 1 + 12 /\ 1 <= d < 1 + 31).
  { unfold valid_civil in Hv'. lia. }
  pose proof roundtrip_cycle_true as Hc.
  apply (forallb_seqZ roundtrip_year 0 400 r) in Hc; [|lia].
  unfold roundtrip_year in Hc.
  apply (forallb_seqZ (roundtrip_month r) 1 12 m) in Hc; [|lia].
  unfold roundtrip_month in Hc.
  apply (forallb_seqZ (roundtrip_ok r m) 1 31 d) in Hc; [|lia].
  unfold roundtrip_ok in Hc. rewrite Hv' in Hc.
  rewrite Hy, days_from_civil_shift, civil_from_days_shift.
  destruct (civil_from_days (days_from_civil r m d)) as [[y0 m0] d0].
  unfold civil_eqb in Hc. cbn [implb fst snd] in Hc.
  f_equal; [f_equal|]; lia.
Qed.

Lemma parse_date_only_fields (s : string) :
  parse_date_only s =
  match date_only_fields s with
  | Some (y, m, d) =>
      if valid_civil y m d then Some (days_from_civil y m d * msPerDay)
      else None
  | None => None
  end.
Proof.
  unfold parse_date_only, date_only_fields, valid_civil.
  destruct (list_ascii_of_string s)
    as [|y1 [|y2 [|y3 [|y4 [|h1 [|m1 [|m2 [|h2 [|d1 [|d2 [|x rest]]]]]]]]]]];
    try reflexivity.
  destruct (Ascii.eqb h1 hyphen && Ascii.eqb h2 hyphen); [|reflexivity].
  destruct (number_of [y1; y2; y3; y4] 0) as [y|]; [|reflexivity].
  destruct (number_of [m1; m2] 0) as [m|]; [|reflexivity].
  destruct (number_of [d1; d2] 0) as [d|]; reflexivity.
Qed.

Lemma Day_local_evening_before (LocalTZA : Z -> Z) (day : Z) :
  - msPerDay <= LocalTZA (day * msPerDay) < 0 ->
  Day (LocalTime LocalTZA (day * msPerDay)) = day - 1.
Proof.
  intros H. unfold Day, LocalTime. symmetry.
  apply (Z.div_unique_pos _ _ (day - 1)
           (LocalTZA (day * msPerDay) + msPerDay));
    unfold msPerDay in *; lia.
Qed.

Lemma days_from_civil_previous (y m d : Z) :
  days_from_civil y m (d - 1) = days_from_civil y m d - 1.
Proof. unfold days_from_civil. cbv zeta. lia. Qed.

Lemma valid_civil_previous (y m d : Z) :
  valid_civil y m d = true -> 2 <= d -> valid_civil y m (d - 1) = true.
Proof. unfold valid_civil. lia. Qed.

(** The text of a valid date whose local day number is that of [y]-[m]-[d]. *)
Lemma toLocaleDateString_civil (LocalTZA : Z -> Z) (tv y m d : Z) :
  valid_civil y m d = true ->
  1 <= y ->
  Day (LocalTime LocalTZA tv) = days_from_civil y m d ->
  toLocaleDateString LocalTZA (mkDate (Some tv)) =
  pretty d +:+ " " +:+ monthLong (m - 1) +:+ " " +:+ pretty y.
Proof.
  intros Hv Hy Hday.
  unfold toLocaleDateString, DateFromTime, MonthFromTime, YearFromTime.
  cbn [DateValue]. cbv zeta. rewrite Hday, (civil_roundtrip y m d Hv).
  cbn [fst snd]. unfold yearOfEra.
  destruct (y <=? 0) eqn:E; [lia|reflexivity].
Qed.

(** X5: a birthdate written as a valid [YYYY-MM-DD] from year 1 on is shown
    with that day, the name of that month and that year by every host whose
    clock is at or ahead of Greenwich by less than a day. *)
Theorem birthdate_shown_as_written (LocalTZA : Z -> Z) (person : Person)
  (s : string) (y m d : Z) :
  birthdate person = new_Date s ->
  date_only_fields s = Some (y, m, d) ->
  valid_civil y m d = true ->
  1 <= y ->
  0 <= LocalTZA (days_from_civil y m d * msPerDay) < msPerDay ->
  formattedBirthdate LocalTZA person =
  pretty d +:+ " " +:+ monthLong (m - 1) +:+ " " +:+ pretty y.
Proof.
  intros Hb Hf Hv Hy Htz. unfold formattedBirthdate, new_Date in *.
  rewrite Hb, parse_date_only_fields, Hf, Hv.
  apply toLocaleDateString_civil; [exact Hv | exact Hy |].
  by apply Day_local_midnight.
Qed.

Lemma birthdate_shown_as_written_witness :
  birthdate Alice = new_Date "1998-05-15" /\
  date_only_fields "1998-05-15" = Some (1998, 5, 15) /\
  valid_civil 1998 5 15 = true /\
  1 <= 1998 /\
  0 <= utc (days_from_civil 1998 5 15 * msPerDay) < msPerDay /\
  formattedBirthdate utc Alice = "15 May 1998".
Proof.
  split; [reflexivity|]. split; [reflexivity|]. split; [reflexivity|].
  split; [lia|]. split; [unfold utc, msPerDay; lia|].
  apply (birthdate_shown_as_written utc Alice "1998-05-15" 1998 5 15);
    [reflexivity | reflexivity | reflexivity | lia | unfold utc, msPerDay; lia].
Defined.

(** X6: on a host behind Greenwich, by a day at most, such a birthdate is
    shown one day early: written with a day of the month from 2 on, it is
    shown with the day before, in the same month and year. *)
Theorem birthdate_shown_a_day_early (LocalTZA : Z -> Z) (person : Person)
  (s : string) (y m d : Z) :
  birthdate person = new_Date s ->
  date_only_fields s = Some (y, m, d) ->
  valid_civil y m d = true ->
  1 <= y ->
  2 <= d ->
  - msPerDay <= LocalTZA (days_from_civil y m d * msPerDay) < 0 ->
  formattedBirthdate LocalTZA person =
  pretty (d - 1) +:+ " " +:+ monthLong (m - 1) +:+ " " +:+ pretty y.
Proof.
  intros Hb Hf Hv Hy Hd Htz. unfold formattedBirthdate, new_Date in *.
  rewrite Hb, parse_date_only_fields, Hf, Hv.
  apply toLocaleDateString_civil;
    [by apply valid_civil_previous | exact Hy |].
  rewrite days_from_civil_previous. by apply Day_local_evening_before.
Qed.

Lemma birthdate_shown_a_day_early_witness :
  birthdate Alice = new_Date "1998-05-15" /\
  date_only_fields "1998-05-15" = Some (1998, 5, 15) /\
  valid_civil 1998 5 15 = true /\
  1 <= 1998 /\ 2 <= 15 /\
  - msPerDay <= five_hours_behind (days_from_civil 1998 5 15 * msPerDay) < 0 /\
  formattedBirthdate five_hours_behind Alice = "14 May 1998".
Proof.
  split; [reflexivity|]. split; [reflexivity|]. split; [reflexivity|].
  split; [lia|]. split; [lia|].
  split; [unfold five_hours_behind, msPerDay; lia|].
  apply (birthdate_shown_a_day_early five_hours_behind Alice "1998-05-15"
           1998 5 15);
    [reflexivity | reflexivity | reflexivity | lia | lia
    | unfold five_hours_behind, msPerDay; lia].
Defined.

(** ** The texts of a card *)

Lemma pretty_N_go_not_default (x : N) (s : string) :
  s <> "N/A" -> pretty_N_go x s <> "N/A".
Proof.
  revert s. induction (N.lt_wf_0 x) as [x _ IH]. intros s Hs.
  destruct (decide (x = 0)%N) as [->|Hx]; [by rewrite pretty_N_go_0|].
  rewrite pretty_N_go_step by lia. apply IH; [apply N.div_lt; lia|].
  unfold pretty_N_char. by repeat case_match.
Qed.

(** No integer is written ["N/A"]. *)
Lemma pretty_Z_not_default (n : Z) : pretty n <> "N/A".
Proof.
  destruct n as [|p|p]; [done| |done].
  unfold pretty, pretty_Z, pretty, pretty_positive, pretty, pretty_N.
  case_decide; [done|]. by apply pretty_N_go_not_default.
Qed.

(** X7: the score line tells integer scores apart: two records whose score
    texts are equal have the same score, and the text is ["N/A"] only for a
    record without score. *)
Theorem score_text_tells_scores_apart (p q : Person) :
  (score_text p = score_text q -> score p = score q) /\
  (score_text p = "N/A" <-> score p = None).
Proof.
  unfold score_text.
  destruct (score p) as [n|], (score q) as [k|]; simpl; split;
    try (intros H; first [ by apply pretty_Z_not_default in H
                         | by symmetry in H; apply pretty_Z_not_default in H
                         | by apply (inj pretty) in H; subst ]);
    try done; split; try done.
  all: intros H; by apply pretty_Z_not_default in H.
Qed.

Lemma score_text_tells_scores_apart_witness :
  (score_text Bob = score_text (set_status status_undefined Bob) /\
   score Bob = score (set_status status_undefined Bob)) /\
  (score Alice = None /\ score_text Alice = "N/A").
Proof.
  destruct (score_text_tells_scores_apart Bob (set_status status_undefined Bob))
    as [Hsame _].
  destruct (score_text_tells_scores_apart Alice Alice) as [_ [_ Hna]].
  split; [split; [reflexivity | apply Hsame; reflexivity]|].
  split; [reflexivity | apply Hna; reflexivity].
Defined.

Lemma program_greet (person : Person) :
  person ∈ complexArray -> greet person = greet_function.
Proof.
  unfold complexArray. intros Hin.
  repeat (apply elem_of_cons in Hin as [->|Hin]; [reflexivity|]).
  by apply elem_of_nil in Hin.
Qed.

(** X8: the card of every record of the program is headed by the name of
    the record and ends with the greeting of that same record: the method
    is called with the record as receiver. *)
Theorem program_card_greets_by_name (LocalTZA : Z -> Z) (person : Person) :
  person ∈ complexArray ->
  occurs_in ("<h3>" +:+ name person +:+ "</h3>")
            (innerHTML (personCard LocalTZA person)) /\
  occurs_in ("<p class=" +:+ dq +:+ "greet" +:+ dq
             +:+ "><strong>Greet:</strong> Hello, I'm " +:+ name person
             +:+ "</p>")
            (innerHTML (personCard LocalTZA person)).
Proof.
  intros Hin. cbn [personCard set_innerHTML innerHTML].
  unfold card_markup, call_greet. rewrite (program_greet person Hin).
  unfold greet_function. cbn [ToString].
  split; find_text "      ".
Qed.

Lemma program_card_greets_by_name_witness :
  Bob ∈ complexArray /\
  occurs_in "<h3>Bob</h3>" (innerHTML (personCard utc Bob)) /\
  occurs_in ("<p class=" +:+ dq +:+ "greet" +:+ dq
             +:+ "><strong>Greet:</strong> Hello, I'm Bob</p>")
            (innerHTML (personCard utc Bob)).
Proof.
  split; [apply list_elem_of_further, list_elem_of_here|].
  apply (program_card_greets_by_name utc Bob).
  apply list_elem_of_further, list_elem_of_here.
Defined.

